(** * The State pattern: a TCP connection (Behavioural/state.cpp)

    A shallow embedding of the [State] interface, its three concrete
    classes and the [TCPConnection] context, followed by the properties of
    the connection's behaviour.

    Conventions of the embedding:
    - [std::cout] is write-only for this program, so a handler is a
      computation in a writer monad: it returns the characters it appends;
    - [std::shared_ptr<State>] may be empty; calling through an empty
      pointer is undefined behaviour and is modelled as a fault ([None]);
    - the concrete state classes have no data members, so an object behind
      a [shared_ptr<State>] is determined by its dynamic class. *)

From Stdlib Require Import String Ascii List Bool.
Import ListNotations.
Local Open Scope string_scope.

(** ** Console output *)

Module Cout.
(** A computation that returns an [A] and the text it wrote. *)
Definition t (A : Type) : Type := (A * string)%type.

Definition ret {A : Type} (a : A) : t A := (a, "").

Definition bind {A B : Type} (m : t A) (k : A -> t B) : t B :=
  let (a, o1) := m in
  let (b, o2) := k a in
  (b, o1 ++ o2).

(** [std::cout << s] *)
Definition put (s : string) : t unit := (tt, s).

(** The line feed written by [std::endl]. *)
Definition newline : string := String "010"%char EmptyString.

(** [std::cout << std::endl] (the flush has no observable content). *)
Definition endl : t unit := put newline.

(** The text a computation wrote. *)
Definition written {A : Type} (m : t A) : string := snd m.
End Cout.

Notation "m1 '<<;' m2" := (Cout.bind m1 (fun _ => m2))
  (at level 61, left associativity).

(** ** The State interface *)

Module State.
(** The four pure virtual methods of [class State]. *)
Record vtable : Type := Build {
  open : Cout.t unit;
  close : Cout.t unit;
  sendData : string -> Cout.t unit;
  receiveData : string -> Cout.t unit
}.
End State.

(** ** ConcreteState: Closed *)

Module ClosedState.
Definition open : Cout.t unit :=
  Cout.put "Transitioning from Closed to Listening state." <<; Cout.endl.

Definition close : Cout.t unit :=
  Cout.put "Already in Closed state." <<; Cout.endl.

Definition sendData (data : string) : Cout.t unit :=
  Cout.put "Cannot send data. Connection is closed." <<; Cout.endl.

Definition receiveData (data : string) : Cout.t unit :=
  Cout.put "Cannot receive data. Connection is closed." <<; Cout.endl.

Definition vtbl : State.vtable := State.Build open close sendData receiveData.
End ClosedState.

(** ** ConcreteState: Listening *)

Module ListeningState.
Definition open : Cout.t unit :=
  Cout.put "Already in Listening state." <<; Cout.endl.

Definition close : Cout.t unit :=
  Cout.put "Transitioning from Listening to Closed state." <<; Cout.endl.

Definition sendData (data : string) : Cout.t unit :=
  Cout.put "Cannot send data. Connection is in Listening state." <<; Cout.endl.

Definition receiveData (data : string) : Cout.t unit :=
  Cout.put "Transitioning from Listening to Established state." <<; Cout.endl.

Definition vtbl : State.vtable := State.Build open close sendData receiveData.
End ListeningState.

(** ** ConcreteState: Established *)

Module EstablishedState.
Definition open : Cout.t unit :=
  Cout.put "Already in Established state." <<; Cout.endl.

Definition close : Cout.t unit :=
  Cout.put "Transitioning from Established to Closed state." <<; Cout.endl.

Definition sendData (data : string) : Cout.t unit :=
  Cout.put "Sending data: " <<; Cout.put data <<; Cout.endl.

Definition receiveData (data : string) : Cout.t unit :=
  Cout.put "Receiving data: " <<; Cout.put data <<; Cout.endl.

Definition vtbl : State.vtable := State.Build open close sendData receiveData.
End EstablishedState.

(** ** Objects and pointers *)

(** The dynamic class of a [State] object: the program defines exactly
    these three subclasses. *)
Inductive ConcreteState : Type :=
  | Closed        (* an object of class ClosedState *)
  | Listening     (* an object of class ListeningState *)
  | Established.  (* an object of class EstablishedState *)

(** Virtual dispatch: the method table of an object's class. *)
Definition vptr (o : ConcreteState) : State.vtable :=
  match o with
  | Closed => ClosedState.vtbl
  | Listening => ListeningState.vtbl
  | Established => EstablishedState.vtbl
  end.

(** [std::shared_ptr<T>]: empty, or pointing to an object. *)
Definition shared_ptr (T : Type) : Type := option T.

(** ** Context (TCPConnection) *)

Record TCPConnection : Type := { state : shared_ptr ConcreteState }.

Module TCPConnection.
(** The outcome of a member call: the connection afterwards and the text
    written, or a fault. *)
Definition result : Type := option (TCPConnection * string).

(** The constructor [TCPConnection(initialState)]. *)
Definition new (initialState : shared_ptr ConcreteState) : TCPConnection :=
  {| state := initialState |}.

Definition setState (newState : shared_ptr ConcreteState)
    (this : TCPConnection) : result :=
  Some ({| state := newState |}, "").

(** [state->m(...)]: the call goes through the pointer; the handler gets
    no access to [this], so the connection is returned as it was. *)
Definition arrow (m : State.vtable -> Cout.t unit)
    (this : TCPConnection) : result :=
  match state this with
  | None => None
  | Some o => Some (this, Cout.written (m (vptr o)))
  end.

Definition open (this : TCPConnection) : result :=
  arrow State.open this.

Definition close (this : TCPConnection) : result :=
  arrow State.close this.

Definition sendData (data : string) (this : TCPConnection) : result :=
  arrow (fun v => State.sendData v data) this.

Definition receiveData (data : string) (this : TCPConnection) : result :=
  arrow (fun v => State.receiveData v data) this.
End TCPConnection.

(** ** Sequences of calls *)

(** One of the four action calls a client can make on a connection. *)
Inductive Action : Type :=
  | Open
  | Close
  | Send (data : string)
  | Receive (data : string).

Definition exec (a : Action) (this : TCPConnection) : TCPConnection.result :=
  match a with
  | Open => TCPConnection.open this
  | Close => TCPConnection.close this
  | Send data => TCPConnection.sendData data this
  | Receive data => TCPConnection.receiveData data this
  end.

(** Runs the calls in order. The trace has one entry per call: the
    connection as it is after the call, and the text the call wrote. *)
Fixpoint run (calls : list Action) (this : TCPConnection)
    : option (list (TCPConnection * string)) :=
  match calls with
  | [] => Some []
  | a :: rest =>
      match exec a this with
      | None => None
      | Some (this', out) =>
          match run rest this' with
          | None => None
          | Some trace => Some ((this', out) :: trace)
          end
      end
  end.

(** The connection at the end of a trace that started from [this]. *)
Definition final (this : TCPConnection) (trace : list (TCPConnection * string))
    : TCPConnection :=
  last (map fst trace) this.

(** The client code of [main], statement by statement; the result is the
    connection at exit and everything printed. *)
Definition main : TCPConnection.result :=
  let closedState := Some Closed in
  let listeningState := Some Listening in
  let establishedState := Some Established in
  let connection := TCPConnection.new closedState in
  match TCPConnection.sendData "Hello" connection with None => None | Some (connection, o1) =>
  match TCPConnection.receiveData "Hi" connection with None => None | Some (connection, o2) =>
  match TCPConnection.setState listeningState connection with None => None | Some (connection, o3) =>
  match TCPConnection.receiveData "Hello" connection with None => None | Some (connection, o4) =>
  match TCPConnection.setState establishedState connection with None => None | Some (connection, o5) =>
  match TCPConnection.sendData "Hello" connection with None => None | Some (connection, o6) =>
  match TCPConnection.receiveData "Hi" connection with None => None | Some (connection, o7) =>
  match TCPConnection.close connection with None => None | Some (connection, o8) =>
  Some (connection, o1 ++ o2 ++ o3 ++ o4 ++ o5 ++ o6 ++ o7 ++ o8)
  end end end end end end end end.

(** ** Reading an effect report *)

(** Every refusal the handlers print starts with the word "Cannot"
    ("Cannot send data. ...", "Cannot receive data. ..."). *)
Definition rejected (report : string) : bool := String.prefix "Cannot " report.

(** A report that is not a refusal. *)
Definition accepted (report : string) : bool := negb (rejected report).

(** The report contains [data] between some text before and after it. *)
Definition echoes (report data : string) : Prop :=
  exists before after, report = before ++ data ++ after.

(** A connection whose pointer refers to an object of class [s]. *)
Definition conn (s : ConcreteState) : TCPConnection :=
  TCPConnection.new (Some s).

(** The connection's pointer refers to one of the three classes. *)
Definition in_declared_state (c : TCPConnection) : Prop :=
  state c = Some Closed \/ state c = Some Listening \/ state c = Some Established.

(** The text the handler of class [s] writes for the call [a]. *)
Definition handler_report (s : ConcreteState) (a : Action) : string :=
  match a with
  | Open => Cout.written (State.open (vptr s))
  | Close => Cout.written (State.close (vptr s))
  | Send data => Cout.written (State.sendData (vptr s) data)
  | Receive data => Cout.written (State.receiveData (vptr s) data)
  end.

(** Among the [Send] calls of a run, the number whose report is an
    accepted one. *)
Fixpoint accepted_sends (calls : list Action)
    (trace : list (TCPConnection * string)) : nat :=
  match calls, trace with
  | Send _ :: calls', (_, report) :: trace' =>
      (if accepted report then 1 else 0) + accepted_sends calls' trace'
  | _ :: calls', _ :: trace' => accepted_sends calls' trace'
  | _, _ => 0
  end.

(** ** Reading what was printed *)

(** The member function a call invokes. *)
Inductive Member : Type := MOpen | MClose | MSendData | MReceiveData.

Definition member (a : Action) : Member :=
  match a with
  | Open => MOpen
  | Close => MClose
  | Send _ => MSendData
  | Receive _ => MReceiveData
  end.

(** The [data] argument of a call; [open()] and [close()] take none. *)
Definition payload (a : Action) : string :=
  match a with
  | Send data | Receive data => data
  | Open | Close => ""
  end.

(** The number of line feeds in a text. *)
Fixpoint line_feeds (text : string) : nat :=
  match text with
  | EmptyString => 0
  | String c rest =>
      (if Ascii.eqb c "010"%char then 1 else 0) + line_feeds rest
  end.

(** Everything a run printed, in order. *)
Definition printed (trace : list (TCPConnection * string)) : string :=
  fold_right (fun entry rest => snd entry ++ rest) "" trace.

(** * Properties *)

Definition nl : string := Cout.newline.

Example main_prints :
  main = Some (conn Established,
    "Cannot send data. Connection is closed." ++ nl ++
    "Cannot receive data. Connection is closed." ++ nl ++
    "Transitioning from Listening to Established state." ++ nl ++
    "Sending data: Hello" ++ nl ++
    "Receiving data: Hi" ++ nl ++
    "Transitioning from Established to Closed state." ++ nl).
Proof. reflexivity. Qed.

(** ** Dispatch lemmas *)

Ltac each_state s := destruct s; cbn.
Ltac each_call a := destruct a; cbn.

(** A call through a pointer to an object of class [s] returns the same
    connection together with the text of that class's handler. *)
Lemma exec_conn (s : ConcreteState) (a : Action) :
  exec a (conn s) = Some (conn s, handler_report s a).
Proof. each_call a; reflexivity. Qed.

Lemma run_conn (s : ConcreteState) (calls : list Action) :
  run calls (conn s) = Some (map (fun a => (conn s, handler_report s a)) calls).
Proof.
  induction calls as [| a rest IH]; [reflexivity |].
  cbn [run map]. rewrite exec_conn, IH. reflexivity.
Qed.

(** No handler prints an empty report: each one ends its line. *)
Lemma handler_report_nonempty (s : ConcreteState) (a : Action) :
  handler_report s a <> "".
Proof. each_state s; each_call a; discriminate. Qed.

(** Calling through an empty pointer faults, whatever the call. *)
Lemma empty_pointer_faults (a : Action) :
  exec a (TCPConnection.new None) = None.
Proof. each_call a; reflexivity. Qed.

Lemma conn_injective (s1 s2 : ConcreteState) : conn s1 = conn s2 -> s1 = s2.
Proof. unfold conn, TCPConnection.new. intros H. congruence. Qed.

(** ** What the handlers do to the state *)

(** C6: in the code as written no action handler changes the connection's
    state. For each of the three states and each of the four calls, the
    connection after the call is the connection before it; a "Transitioning"
    message is printed with no change of state; and [setState] does change
    the state: it installs the pointer it is given, on any connection. *)
Theorem handlers_leave_state_unchanged :
  (forall (s : ConcreteState) (a : Action),
      exists report, exec a (conn s) = Some (conn s, report)) /\
  TCPConnection.open (conn Closed) =
    Some (conn Closed, "Transitioning from Closed to Listening state." ++ nl) /\
  TCPConnection.receiveData "Hello" (conn Listening) =
    Some (conn Listening,
          "Transitioning from Listening to Established state." ++ nl) /\
  TCPConnection.close (conn Established) =
    Some (conn Established,
          "Transitioning from Established to Closed state." ++ nl) /\
  (forall (this : TCPConnection) (next : shared_ptr ConcreteState),
      exists this', TCPConnection.setState next this = Some (this', "") /\
                    state this' = next) /\
  (exists this' : TCPConnection,
      TCPConnection.setState (Some Listening) (conn Closed) = Some (this', "") /\
      state this' <> state (conn Closed)).
Proof.
  repeat split.
  - intros s a. exists (handler_report s a). apply exec_conn.
  - intros this next. eexists. split; reflexivity.
  - eexists. split; [reflexivity | discriminate].
Qed.

(** C1, evaluated on the code: [close()] on a connection in the Listening
    state prints the transition message and leaves the connection in the
    Listening state, which is not the Closed state; a second [close()] does
    the same. Only from the Closed state does [close()] end in the Closed
    state. *)
Theorem close_in_Listening_stays_Listening :
  run [Close; Close] (conn Listening) =
    Some [(conn Listening, "Transitioning from Listening to Closed state." ++ nl);
          (conn Listening, "Transitioning from Listening to Closed state." ++ nl)] /\
  state (conn Listening) <> Some Closed /\
  (forall s : ConcreteState,
      (exists report, TCPConnection.close (conn s) = Some (conn Closed, report))
      <-> s = Closed).
Proof.
  split; [reflexivity |]. split; [discriminate |].
  intros s. split.
  - intros [report H]. change (exec Close (conn s) = Some (conn Closed, report)) in H.
    rewrite exec_conn in H. apply conn_injective. congruence.
  - intros ->. eexists. reflexivity.
Qed.

(** C2, evaluated on the code: [open()] on a connection in the Closed state
    prints the transition message and leaves the connection in the Closed
    state, not in the Listening state. In the Listening state [open()]
    changes nothing. *)
Theorem open_in_Closed_stays_Closed :
  TCPConnection.open (conn Closed) =
    Some (conn Closed, "Transitioning from Closed to Listening state." ++ nl) /\
  state (conn Closed) <> Some Listening /\
  TCPConnection.open (conn Listening) =
    Some (conn Listening, "Already in Listening state." ++ nl).
Proof. split; [reflexivity |]. split; [discriminate | reflexivity]. Qed.

(** C3, evaluated on the code: for every payload, [receiveData] on a
    connection in the Listening state prints the transition message and
    leaves the connection in the Listening state, not in the Established
    state. In the Established state it leaves the connection as it was and
    its report echoes the payload. *)
Theorem receive_in_Listening_stays_Listening (data : string) :
  TCPConnection.receiveData data (conn Listening) =
    Some (conn Listening,
          "Transitioning from Listening to Established state." ++ nl) /\
  state (conn Listening) <> Some Established /\
  (exists report,
      TCPConnection.receiveData data (conn Established) =
        Some (conn Established, report) /\
      echoes report data).
Proof.
  split; [reflexivity |]. split; [discriminate |].
  eexists. split; [reflexivity |].
  exists "Receiving data: ", nl. reflexivity.
Qed.

(** C4, evaluated on the code: from the Closed state the sequence
    open(); receive(x); send(y); close() keeps the connection in the Closed
    state throughout, so the send is refused: no send of the sequence is
    accepted. *)
Theorem round_trip_send_is_refused (x y : string) :
  let calls := [Open; Receive x; Send y; Close] in
  exists trace,
    run calls (conn Closed) = Some trace /\
    trace =
      [(conn Closed, "Transitioning from Closed to Listening state." ++ nl);
       (conn Closed, "Cannot receive data. Connection is closed." ++ nl);
       (conn Closed, "Cannot send data. Connection is closed." ++ nl);
       (conn Closed, "Already in Closed state." ++ nl)] /\
    final (conn Closed) trace = conn Closed /\
    accepted_sends calls trace = 0.
Proof.
  cbv zeta. eexists. split; [reflexivity |]. repeat split.
Qed.

(** ** Sending *)

(** C5: for every payload, [sendData] produces an accepted report exactly
    when the connection is in the Established state, and the accepted report
    is the send itself: the text "Sending data: " followed by the payload
    and a line feed, printed in the Established state and in no other. In
    the Closed and Listening states it produces a refusal, each state its
    own "Cannot send data." line; in every state the connection is left as
    it was. *)
Theorem send_accepted_iff_Established (s : ConcreteState) (p : string) :
  exists report,
    TCPConnection.sendData p (conn s) = Some (conn s, report) /\
    (accepted report = true <-> s = Established) /\
    (rejected report = true <-> s = Closed \/ s = Listening) /\
    (report = "Sending data: " ++ p ++ nl <-> s = Established) /\
    (report = "Cannot send data. Connection is closed." ++ nl <->
       s = Closed) /\
    (report = "Cannot send data. Connection is in Listening state." ++ nl <->
       s = Listening).
Proof.
  exists (handler_report s (Send p)). split; [apply (exec_conn s (Send p)) |].
  each_state s; unfold accepted; cbn; repeat split; intros H;
    try reflexivity; try discriminate H; auto;
    destruct H as [H | H]; discriminate H.
Qed.

(** ** Runs of calls *)

Lemma conn_in_declared_state (s : ConcreteState) : in_declared_state (conn s).
Proof. unfold in_declared_state. each_state s; auto. Qed.

Lemma conn_state_unique (s : ConcreteState) :
  exists! k : ConcreteState, state (conn s) = Some k.
Proof.
  exists s. split; [reflexivity |].
  intros k H. cbn in H. congruence.
Qed.

(** C7: from each of the three states, every finite sequence of calls runs
    to its end, and after each call the connection is in one of Closed,
    Listening, Established, and in exactly one of them. *)
Theorem reachable_states_are_declared
    (s : ConcreteState) (calls : list Action) :
  exists trace,
    run calls (conn s) = Some trace /\
    length trace = length calls /\
    Forall (fun entry =>
              in_declared_state (fst entry) /\
              exists! k : ConcreteState, state (fst entry) = Some k) trace /\
    in_declared_state (final (conn s) trace).
Proof.
  eexists. split; [apply run_conn |].
  split; [apply length_map |].
  split.
  - apply Forall_forall. intros entry Hin.
    apply in_map_iff in Hin. destruct Hin as [a [<- _]]. cbn [fst].
    split; [apply conn_in_declared_state | apply conn_state_unique].
  - unfold final. rewrite map_map. cbn [fst].
    induction calls as [| a [| b rest] IH]; cbn; try apply conn_in_declared_state.
    apply IH.
Qed.

(** C8: in each of the three states each of the four calls returns normally
    with a report, which is never empty; a refusal is such a report, not a
    fault. *)
Theorem every_call_returns_a_report :
  (forall (s : ConcreteState) (a : Action),
      exists this' report,
        exec a (conn s) = Some (this', report) /\ report <> "") /\
  (forall (s : ConcreteState),
      exists this' report,
        TCPConnection.open (conn s) = Some (this', report)) /\
  (forall (s : ConcreteState),
      exists this' report,
        TCPConnection.close (conn s) = Some (this', report)) /\
  (forall (s : ConcreteState) (payload : string),
      exists this' report,
        TCPConnection.sendData payload (conn s) = Some (this', report)) /\
  (forall (s : ConcreteState) (payload : string),
      exists this' report,
        TCPConnection.receiveData payload (conn s) = Some (this', report)) /\
  (forall (s : ConcreteState) (a : Action) (this' : TCPConnection)
          (report : string),
      exec a (conn s) = Some (this', report) ->
      rejected report = true -> this' = conn s).
Proof.
  repeat split.
  - intros s a. exists (conn s), (handler_report s a).
    split; [apply exec_conn | apply handler_report_nonempty].
  - intros s. do 2 eexists. apply (exec_conn s Open).
  - intros s. do 2 eexists. apply (exec_conn s Close).
  - intros s payload. do 2 eexists. apply (exec_conn s (Send payload)).
  - intros s payload. do 2 eexists. apply (exec_conn s (Receive payload)).
  - intros s a this' report H _. rewrite exec_conn in H. congruence.
Qed.

(** ** setState *)


(** ** The payload *)

Lemma payload_blind (s : ConcreteState) (wrap : string -> Action)
    (p1 p2 : string) :
  (wrap = Send \/ wrap = Receive) ->
  accepted (handler_report s (wrap p1)) = accepted (handler_report s (wrap p2)) /\
  (s <> Established ->
     handler_report s (wrap p1) = handler_report s (wrap p2)) /\
  (s = Established ->
     exists before after,
       handler_report s (wrap p1) = before ++ p1 ++ after /\
       handler_report s (wrap p2) = before ++ p2 ++ after).
Proof.
  intros [-> | ->]; each_state s; repeat split;
    try reflexivity; try discriminate; try congruence; intros _.
  - exists "Sending data: ", nl. split; reflexivity.
  - exists "Receiving data: ", nl. split; reflexivity.
Qed.

(** C10: the payload is never inspected. From every state, [sendData]
    (respectively [receiveData]) called with two payloads leaves the same
    connection and gives the same accepted-or-refused outcome; outside the
    Established state the two reports are identical, and in the Established
    state they differ only in the echoed payload. *)
Theorem payload_is_never_inspected (s : ConcreteState) (p1 p2 : string) :
  (exists this' r1 r2,
      TCPConnection.sendData p1 (conn s) = Some (this', r1) /\
      TCPConnection.sendData p2 (conn s) = Some (this', r2) /\
      accepted r1 = accepted r2 /\
      (s <> Established -> r1 = r2) /\
      (s = Established ->
         exists before after,
           r1 = before ++ p1 ++ after /\ r2 = before ++ p2 ++ after)) /\
  (exists this' r1 r2,
      TCPConnection.receiveData p1 (conn s) = Some (this', r1) /\
      TCPConnection.receiveData p2 (conn s) = Some (this', r2) /\
      accepted r1 = accepted r2 /\
      (s <> Established -> r1 = r2) /\
      (s = Established ->
         exists before after,
           r1 = before ++ p1 ++ after /\ r2 = before ++ p2 ++ after)).
Proof.
  split.
  - exists (conn s), (handler_report s (Send p1)), (handler_report s (Send p2)).
    split; [apply (exec_conn s (Send p1)) |].
    split; [apply (exec_conn s (Send p2)) |].
    apply payload_blind. now left.
  - exists (conn s), (handler_report s (Receive p1)),
      (handler_report s (Receive p2)).
    split; [apply (exec_conn s (Receive p1)) |].
    split; [apply (exec_conn s (Receive p2)) |].
    apply payload_blind. now right.
Qed.


(** * Further properties of the connection *)

(** ** Text lemmas *)

Lemma line_feeds_app (a b : string) :
  line_feeds (a ++ b) = line_feeds a + line_feeds b.
Proof.
  induction a as [| c a IH]; [reflexivity |].
  cbn [append line_feeds]. rewrite IH. apply PeanoNat.Nat.add_assoc.
Qed.

Lemma append_newline_injective (p1 p2 : string) :
  p1 ++ nl = p2 ++ nl -> p1 = p2.
Proof.
  revert p2. induction p1 as [| c p1 IH]; intros [| d p2] H; cbn in H.
  - reflexivity.
  - injection H as _ H. destruct p2; discriminate.
  - injection H as _ H. destruct p1; discriminate.
  - injection H as -> H. f_equal. apply IH, H.
Qed.

(** ** Calls through an empty pointer *)




(** ** Which calls are refused *)

(** X2: over all three states and all four calls, the report is a refusal
    in exactly three cases: [sendData] or [receiveData] in the Closed state,
    and [sendData] in the Listening state. In particular [open()] and
    [close()] are never refused, and [receiveData] is refused only when the
    connection is closed. *)
Theorem refused_exactly_when (s : ConcreteState) (a : Action) :
  exists report,
    exec a (conn s) = Some (conn s, report) /\
    (rejected report = true <->
       (s = Closed /\ (member a = MSendData \/ member a = MReceiveData)) \/
       (s = Listening /\ member a = MSendData)).
Proof.
  exists (handler_report s a). split; [apply exec_conn |].
  each_state s; each_call a; split; intros H; try reflexivity;
    try discriminate; auto;
    repeat match goal with
      | H : _ \/ _ |- _ => destruct H
      | H : _ /\ _ |- _ => destruct H
      end; discriminate.
Qed.

(** ** One line per call *)

Lemma handler_report_line (s : ConcreteState) (a : Action) :
  exists body,
    handler_report s a = body ++ nl /\
    (s <> Established -> line_feeds body = 0) /\
    (s = Established -> line_feeds body = line_feeds (payload a)).
Proof.
  destruct s; destruct a as [| | data | data];
    try (eexists; split; [reflexivity |];
         split; [reflexivity | discriminate]).
  - exists "Already in Established state.".
    split; [reflexivity |]. split; [intros H; now elim H | reflexivity].
  - exists "Transitioning from Established to Closed state.".
    split; [reflexivity |]. split; [intros H; now elim H | reflexivity].
  - exists ("Sending data: " ++ data).
    split; [reflexivity |]. split; [intros H; now elim H | reflexivity].
  - exists ("Receiving data: " ++ data).
    split; [reflexivity |]. split; [intros H; now elim H | reflexivity].
Qed.

Lemma handler_report_line_feeds (s : ConcreteState) (a : Action) :
  line_feeds (payload a) = 0 -> line_feeds (handler_report s a) = 1.
Proof.
  intros Hp. destruct (handler_report_line s a) as [body [-> [Hn He]]].
  rewrite line_feeds_app. cbn.
  destruct s; try (rewrite Hn by discriminate; reflexivity).
  rewrite He by reflexivity. rewrite Hp. reflexivity.
Qed.

(** X3: every action call prints one line: its report is some text followed
    by a single line feed. Outside the Established state that text has no
    line feed of its own; in the Established state it has exactly the line
    feeds of the payload it echoes. *)
Theorem report_is_one_line (s : ConcreteState) (a : Action) :
  exists report body,
    exec a (conn s) = Some (conn s, report) /\
    report = body ++ nl /\
    (s <> Established -> line_feeds body = 0) /\
    (s = Established -> line_feeds body = line_feeds (payload a)).
Proof.
  destruct (handler_report_line s a) as [body H].
  exists (handler_report s a), body. split; [apply exec_conn | exact H].
Qed.

(** X4: when no payload contains a line feed, a sequence of calls from any
    of the three states prints exactly as many lines as it has calls. *)
Theorem run_prints_one_line_per_call
    (s : ConcreteState) (calls : list Action) :
  Forall (fun a => line_feeds (payload a) = 0) calls ->
  exists trace,
    run calls (conn s) = Some trace /\
    line_feeds (printed trace) = length calls.
Proof.
  intros Hfree. eexists. split; [apply run_conn |].
  induction Hfree as [| a rest Ha _ IH]; [reflexivity |].
  cbn [map printed fold_right snd length].
  rewrite line_feeds_app, (handler_report_line_feeds s a Ha).
  cbn [Nat.add]. f_equal. exact IH.
Qed.

Lemma run_prints_one_line_per_call_witness :
  Forall (fun a => line_feeds (payload a) = 0)
         [Send "Hello"; Receive "Hi"; Close] /\
  exists trace,
    run [Send "Hello"; Receive "Hi"; Close] (conn Established) = Some trace /\
    line_feeds (printed trace) = 3.
Proof.
  assert (Forall (fun a => line_feeds (payload a) = 0)
                 [Send "Hello"; Receive "Hi"; Close]) as H
    by (repeat constructor).
  split; [exact H |].
  exact (run_prints_one_line_per_call Established
           [Send "Hello"; Receive "Hi"; Close] H).
Defined.

(** ** Telling reports apart *)

(** X5: in the Established state the payload can be read back from the
    report: [sendData] (respectively [receiveData]) gives the same outcome
    for two payloads exactly when the payloads are equal. *)
Theorem established_report_determines_payload (p1 p2 : string) :
  (TCPConnection.sendData p1 (conn Established) =
     TCPConnection.sendData p2 (conn Established) <-> p1 = p2) /\
  (TCPConnection.receiveData p1 (conn Established) =
     TCPConnection.receiveData p2 (conn Established) <-> p1 = p2).
Proof.
  split; (split; [| intros ->; reflexivity]); cbn; intros H;
    injection H as H; apply append_newline_injective; exact H.
Qed.

(** X6: a report tells which handler printed it. If a call in one state and
    a call in another print the same report, the two states are the same
    and the two calls are of the same member function, whatever the
    payloads. *)
Theorem report_identifies_state_and_member
    (s1 s2 : ConcreteState) (a1 a2 : Action)
    (c1 c2 : TCPConnection) (report : string) :
  exec a1 (conn s1) = Some (c1, report) ->
  exec a2 (conn s2) = Some (c2, report) ->
  s1 = s2 /\ member a1 = member a2.
Proof.
  rewrite !exec_conn. intros H1 H2.
  assert (handler_report s1 a1 = handler_report s2 a2) as H by congruence.
  clear H1 H2.
  destruct s1, s2, a1, a2; cbn in H; try discriminate H; split; reflexivity.
Qed.

Lemma report_identifies_state_and_member_witness :
  Listening = Listening /\ member (Receive "Hello") = member (Receive "Hi").
Proof.
  apply (report_identifies_state_and_member Listening Listening
           (Receive "Hello") (Receive "Hi") (conn Listening) (conn Listening)
           ("Transitioning from Listening to Established state." ++ nl));
    reflexivity.
Defined.

(** ** The client code *)

(** X7: [main] runs to its end without calling through an empty pointer and
    prints six lines: two refusals in the Closed state, the Listening
    handler's transition message, the two echoes of the Established state
    and the Established handler's closing message. The two [setState] calls
    print nothing, and the connection at exit is in the Established state:
    the final [close()] has not moved it to the Closed state. *)
Theorem main_ends_in_Established :
  exists out,
    main = Some (conn Established, out) /\
    out =
      handler_report Closed (Send "Hello") ++
      handler_report Closed (Receive "Hi") ++
      handler_report Listening (Receive "Hello") ++
      handler_report Established (Send "Hello") ++
      handler_report Established (Receive "Hi") ++
      handler_report Established Close /\
    line_feeds out = 6 /\
    rejected (handler_report Closed (Send "Hello")) = true /\
    rejected (handler_report Closed (Receive "Hi")) = true /\
    state (conn Established) <> Some Closed.
Proof.
  eexists. split; [reflexivity |].
  repeat split. discriminate.
Qed.
